(** * The Sensu Go alert service of kapacitor (package [sensugo])

    A shallow embedding of [services/sensugo]: the configuration
    ([Config], [Config.Validate]), the service ([Service.Update],
    [Service.TestOptions], [Service.Test], [Service.Alert]) and the alert
    handler ([handler.Handle]), followed by the properties of the
    specification that are settled on it.

    Conventions.
    - A Go [string] is a [string]; a slice is a [list] (a nil slice and an
      empty slice are the same list: the code only takes [len] of them);
      a [map[string]string] is a [gmap string string]; an [int] is a [Z].
    - A Go [error] value is identified with its message; a result of type
      [error] is an [option error], [None] being [nil].
    - What the package calls outside of itself (the clock, [json.Marshal],
      [net/http], the diagnostic sink) is a parameter: a [World] answers
      the calls, and every call that leaves the package is emitted as an
      [Effect], in program order. *)

From stdpp Require Import base strings gmap list pretty.

Open Scope Z_scope.

(** ** Errors *)

Definition error : Type := string.

(** [errors.New] *)
Definition errors_New (text : string) : error := text.

(** A Go pair [(value, err)] of which the value is only used when [err] is
    [nil]. *)
Inductive result (A : Type) : Type :=
| Ok (a : A)
| Err (e : error).
Arguments Ok {A} a.
Arguments Err {A} e.

(** ** Configuration *)

Module Config.

Record t : Type := mk {
  Enabled : bool;
  URL : string;
  Token : string;
  Namespace : string;
  Handlers : list string;
}.

(** [NewConfig]: the zero value. *)
Definition NewConfig : t :=
  {| Enabled := false; URL := ""; Token := ""; Namespace := ""; Handlers := [] |}.

(** [func (c Config) Validate() error] *)
Definition Validate (c : t) : option error :=
  if Enabled c && bool_decide (URL c = "") then
    Some (errors_New "must specify backend URL")
  else None.

End Config.

(** ** Packages the service imports *)

(** [keyvalue.T] and [keyvalue.KV]. *)
Module keyvalue.

Record T : Type := mk { Key : string; Value : string }.

Definition KV (k v : string) : T := {| Key := k; Value := v |}.

End keyvalue.

(** Package [alert] declares [Level], its constants and [Event] outside
    of this package.  The level type is a parameter: a type with
    decidable equality (the code compares levels in a [switch]) and four
    constants, pairwise distinct (a Go [switch] does not compile with a
    repeated constant case).  A level may be none of the four. *)
Module alert.

Class Levels : Type := {
  Level : Type;
  Level_eq_dec : EqDecision Level;
  OK : Level;
  Info : Level;
  Warning : Level;
  Critical : Level;
  Level_distinct : NoDup [OK; Info; Warning; Critical];
}.
#[global] Existing Instance Level_eq_dec.

(** The fields of [alert.EventState] that the handler reads. *)
Module EventState.
Record t {L : Levels} : Type := mk {
  ID : string;
  Message : string;
  Level : alert.Level;
}.
End EventState.

(** The field of [alert.EventData] that the handler reads. *)
Module EventData.
Record t : Type := mk { Tags : gmap string string }.
End EventData.

Module Event.
Record t {L : Levels} : Type := mk {
  State : EventState.t;
  Data : EventData.t;
}.
End Event.

(** The levels numbered as a Go [iota] block numbers them; any other
    integer is a level that is none of the four. *)
Definition iota_levels : Levels.
Proof.
  refine {| Level := Z; OK := 0; Info := 1; Warning := 2; Critical := 3 |}.
  compute_done.
Defined.

End alert.

(** The diagnostic sink.  [Diagnostic] is an interface whose
    implementation lives outside of this package: a value of it is
    modelled by the context it carries, and its [Error] method by the
    effect [diag_Error_call] (below). *)
Module Diagnostic.

Record t : Type := mk { ctx : list keyvalue.T }.

(** [WithContext(ctx ...keyvalue.T) Diagnostic] *)
Definition WithContext (d : t) (kvs : list keyvalue.T) : t :=
  {| ctx := ctx d ++ kvs |}.

End Diagnostic.

(** What the code uses of [net/http]. *)
Module http.

Module Request.
Record t : Type := mk {
  Method : string;
  URL : string;
  Header : gmap string (list string);
  Body : string;
  (** the deadline of the request's context, as a duration in
      nanoseconds from its creation; [None]: no deadline *)
  Timeout : option Z;
}.

(** [req.Header.Set(key, value)]; both keys the code sets are already
    in canonical form. *)
Definition Header_Set (key value : string) (r : t) : t :=
  {| Method := Method r; URL := URL r;
     Header := <[key := [value]]> (Header r);
     Body := Body r; Timeout := Timeout r |}.

(** [req.WithContext(ctx)] for [ctx] from [context.WithTimeout]. *)
Definition WithTimeout (d : Z) (r : t) : t :=
  {| Method := Method r; URL := URL r; Header := Header r;
     Body := Body r; Timeout := Some d |}.
End Request.

Module Response.
Record t : Type := mk { StatusCode : Z }.
End Response.

End http.

(** [time.Minute], a [time.Duration] in nanoseconds. *)
Definition time_Minute : Z := 60 * 1000000000.

(** ** The event that is posted *)

(** [PostEvent], a struct of anonymous structs; each is a record here. *)
Module PostEvent.

Module EntityMetadata.
Record t : Type := mk {
  Name : string;
  Namespace : string;
  Labels : gmap string string;
}.
End EntityMetadata.

Module Entity.
Record t : Type := mk {
  EntityClass : string;
  Metadata : EntityMetadata.t;
}.
End Entity.

Module CheckMetadata.
Record t : Type := mk {
  Name : string;
  Labels : gmap string string;
}.
End CheckMetadata.

Module Check.
Record t : Type := mk {
  Output : string;
  Status : Z;
  Metadata : CheckMetadata.t;
  Issued : Z;
  Executed : Z;
  Handlers : list string;
}.
End Check.

Record t : Type := mk {
  Entity : Entity.t;
  Check : Check.t;
}.

End PostEvent.

(** ** Handler configuration and test options *)

Module HandlerConfig.

Record t : Type := mk {
  URL : string;
  Namespace : string;
  Labels : gmap string string;
  Handlers : list string;
  Check : string;
  Entity : string;
  EntityTag : string;
}.

End HandlerConfig.

Module testOptions.

Record t {L : alert.Levels} : Type := mk {
  Check : string;
  Entity : string;
  EntityTag : string;
  Message : string;
  Namespace : string;
  Handlers : list string;
  Labels : gmap string string;
  Level : alert.Level;
}.

End testOptions.

(** A value of type [interface{}], by its dynamic type: the two types the
    package asserts, and any other type, of which only the name that
    [%T] prints is kept.  A [*testOptions] is taken to be non-nil, as the
    one [TestOptions] returns. *)
Inductive any {L : alert.Levels} : Type :=
| any_Config (c : Config.t)
| any_testOptions_ptr (o : testOptions.t)
| any_other (type_name : string).

(** ** The service and what it does to the outside *)

Module Service.

(** [configValue] is the content of the [atomic.Value]. *)
Record t : Type := mk {
  configValue : Config.t;
  diag : Diagnostic.t;
}.

End Service.

(** The handler; its field [s] points to the one service the state of the
    model holds. *)
Module handler.

Record t : Type := mk {
  c : HandlerConfig.t;
  diag : Diagnostic.t;
}.

End handler.

(** A call that leaves the package. *)
Inductive Effect : Type :=
| json_Marshal_call (event : PostEvent.t)
| http_Do_call (req : http.Request.t)
| Body_Close_call
| diag_Error_call (d : Diagnostic.t) (msg : string) (err : option error)
                  (kvs : list keyvalue.T).

(** The answers of the outside. *)
Record World : Type := {
  (** [time.Now().Unix()] *)
  time_Now_Unix : Z;
  (** [json.Marshal(event)] *)
  json_Marshal : PostEvent.t → result string;
  (** the error of [http.NewRequest(method, url, _)], which depends on
      the method and the URL only *)
  http_NewRequest_err : string → string → option error;
  (** [httpClient.Do(req)] *)
  http_Client_Do : http.Request.t → result http.Response.t;
}.

(** [http.NewRequest]: a request with the method, URL and body given, no
    header and the background context, or the error of the world. *)
Definition http_NewRequest (w : World) (method url body : string)
  : result http.Request.t :=
  match http_NewRequest_err w method url with
  | Some err => Err err
  | None =>
      Ok {| http.Request.Method := method; http.Request.URL := url;
            http.Request.Header := ∅; http.Request.Body := body;
            http.Request.Timeout := None |}
  end.

(** A method of the service: it reads and writes the service and emits
    effects. *)
Definition M (A : Type) : Type := Service.t → A * Service.t * list Effect.

Global Instance M_ret : MRet M := λ A a s, (a, s, []).

Global Instance M_bind : MBind M := λ A B f m s,
  let '(a, s1, t1) := m s in
  let '(b, s2, t2) := f a s1 in
  (b, s2, t1 ++ t2).

Definition emit (e : Effect) : M unit := λ s, (tt, s, [e]).

(** [s.configValue.Load().(Config)] and [s.configValue.Store(c)] *)
Definition configValue_Load : M Config.t := λ s, (Service.configValue s, s, []).

Definition configValue_Store (c : Config.t) : M unit := λ s,
  (tt, {| Service.configValue := c; Service.diag := Service.diag s |}, []).

Definition get_diag : M Diagnostic.t := λ s, (Service.diag s, s, []).

(** [d.Error(msg, err, kvs...)] *)
Definition diag_Error (d : Diagnostic.t) (msg : string) (err : option error)
    (kvs : list keyvalue.T) : M unit :=
  emit (diag_Error_call d msg err kvs).

(** ** The methods of the package *)

Section sensugo.

Context {L : alert.Levels}.

(** What [%T] prints for a value of type [interface{}]. *)
Definition type_name_of (v : any) : string :=
  match v with
  | any_Config _ => "sensugo.Config"
  | any_testOptions_ptr _ => "*sensugo.testOptions"
  | any_other n => n
  end.

(** [func NewService(c Config, d Diagnostic) *Service] *)
Definition NewService (c : Config.t) (d : Diagnostic.t) : Service.t :=
  {| Service.configValue := c; Service.diag := d |}.

(** [func (s *Service) Open() error] *)
Definition Open : M (option error) := mret None.

(** [func (s *Service) Close() error] *)
Definition Close : M (option error) := mret None.

(** [func (s *Service) config() Config] *)
Definition config : M Config.t := configValue_Load.

(** [func (s *Service) Update(newConfig []interface{}) error].  The
    list is a singleton exactly when [len(newConfig)] is 1, and then
    its element is [newConfig[0]]. *)
Definition Update (newConfig : list any) : M (option error) :=
  match newConfig with
  | [v] =>
      match v with
      | any_Config c => configValue_Store c ;; mret None
      | _ =>
          mret (Some ("expected config object to be of type "
                      +:+ "sensugo.Config" +:+ ", got " +:+ type_name_of v))
      end
  | _ =>
      mret (Some ("expected only one new config object, got "
                  +:+ pretty (Z.of_nat (length newConfig))))
  end.

(** [func (s *Service) TestOptions() interface{}] *)
Definition TestOptions : any :=
  any_testOptions_ptr
    {| testOptions.Check := "testName";
       testOptions.Entity := "testEntity";
       testOptions.EntityTag := "testEntityTag";
       testOptions.Message := "testMessage";
       testOptions.Namespace := "test";
       testOptions.Handlers := [];
       testOptions.Labels := ∅;
       testOptions.Level := alert.Critical |}.

Section with_world.

Variable w : World.

(** [func (s *Service) Alert(check, entity, message, namespace string,
    handlers []string, labels map[string]string, level alert.Level) error].
    The event is built field by field in the code and all at once here;
    the deferred [cancel()] of the context has no effect outside of the
    call and is left out, the deferred [resp.Body.Close()] is the last
    effect of a call that got a response. *)
Definition Alert (check entity message namespace : string)
    (handlers : list string) (labels : gmap string string)
    (level : alert.Level) : M (option error) :=
  c ← config;
  if negb (Config.Enabled c) then
    mret (Some (errors_New "service is not enabled"))
  else
    let status : Z :=
      if decide (level = alert.OK) then 0
      else if decide (level = alert.Info) then 0
      else if decide (level = alert.Warning) then 1
      else if decide (level = alert.Critical) then 2
      else 3 in
    let now := time_Now_Unix w in
    let event :=
      {| PostEvent.Entity :=
           {| PostEvent.Entity.EntityClass := "proxy";
              PostEvent.Entity.Metadata :=
                {| PostEvent.EntityMetadata.Name := entity;
                   PostEvent.EntityMetadata.Namespace :=
                     if bool_decide (namespace ≠ "") then namespace
                     else Config.Namespace c;
                   PostEvent.EntityMetadata.Labels := labels |} |};
         PostEvent.Check :=
           {| PostEvent.Check.Output := message;
              PostEvent.Check.Status := status;
              PostEvent.Check.Metadata :=
                {| PostEvent.CheckMetadata.Name := check;
                   PostEvent.CheckMetadata.Labels := labels |};
              PostEvent.Check.Issued := now;
              PostEvent.Check.Executed := now;
              PostEvent.Check.Handlers :=
                if bool_decide (Z.of_nat (length handlers) > 0) then handlers
                else Config.Handlers c |} |} in
    emit (json_Marshal_call event) ;;
    match json_Marshal w event with
    | Err err => mret (Some err)
    | Ok data =>
        match http_NewRequest w "POST" (Config.URL c) data with
        | Err err =>
            mret (Some ("failed to create POST request: " +:+ err))
        | Ok req =>
            let req :=
              http.Request.Header_Set "Authorization" (Config.Token c) req in
            let req :=
              http.Request.Header_Set "Content-Type" "application/json" req in
            let req := http.Request.WithTimeout (1 * time_Minute) req in
            emit (http_Do_call req) ;;
            match http_Client_Do w req with
            | Err err =>
                d ← get_diag;
                diag_Error d "Failed to POST to Sensu Go" (Some err) [] ;;
                mret (Some err)
            | Ok resp =>
                let code := http.Response.StatusCode resp in
                (if bool_decide (code `quot` 100 ≠ 2) then
                   d ← get_diag;
                   diag_Error d
                     ("POST returned non 2xx status code ("
                      +:+ pretty code +:+ ")")
                     None
                     [keyvalue.KV "code" (pretty code)]
                 else mret tt) ;;
                (* deferred: resp.Body.Close() *)
                emit Body_Close_call ;;
                mret None
            end
        end
    end.

(** [func (s *Service) Test(options interface{}) error] *)
Definition Test (options : any) : M (option error) :=
  match options with
  | any_testOptions_ptr o =>
      Alert (testOptions.Check o) (testOptions.Entity o)
            (testOptions.Message o) (testOptions.Namespace o)
            (testOptions.Handlers o) (testOptions.Labels o)
            (testOptions.Level o)
  | _ =>
      mret (Some ("unexpected options type " +:+ type_name_of options))
  end.


(** [func (h *handler) Handle(event alert.Event)] *)
Definition Handle (h : handler.t) (event : alert.Event.t) : M unit :=
  let entity := HandlerConfig.Entity (handler.c h) in
  let entity :=
    if bool_decide (HandlerConfig.Entity (handler.c h) = "")
       && bool_decide (HandlerConfig.EntityTag (handler.c h) ≠ "")
    then
      match alert.EventData.Tags (alert.Event.Data event)
              !! HandlerConfig.EntityTag (handler.c h) with
      | Some e => e
      | None => entity
      end
    else entity in
  err ← Alert (alert.EventState.ID (alert.Event.State event))
              entity
              (alert.EventState.Message (alert.Event.State event))
              (HandlerConfig.Namespace (handler.c h))
              (HandlerConfig.Handlers (handler.c h))
              (HandlerConfig.Labels (handler.c h))
              (alert.EventState.Level (alert.Event.State event));
  match err with
  | Some err =>
      diag_Error (handler.diag h) "failed to send event to Sensu Go"
                 (Some err) []
  | None => mret tt
  end.

End with_world.

End sensugo.

(** ** Reading a run *)

(** The events a run has built and handed to [json.Marshal]. *)
Definition events_built (tr : list Effect) : list PostEvent.t :=
  omap (λ e, match e with json_Marshal_call ev => Some ev | _ => None end) tr.

(** The requests a run has handed to the HTTP client. *)
Definition requests_sent (tr : list Effect) : list http.Request.t :=
  omap (λ e, match e with http_Do_call req => Some req | _ => None end) tr.

(** The reports a run has made to the diagnostic sink: the sink, the
    message, the error and the key-value pairs of each. *)
Definition diag_reports (tr : list Effect)
  : list (Diagnostic.t * string * option error * list keyvalue.T) :=
  omap (λ e, match e with
             | diag_Error_call d msg err kvs => Some (d, msg, err, kvs)
             | _ => None
             end) tr.

(** The status that the [switch] of [Alert] computes, read off the
    event: what the specification lists for each level. *)
Definition status_as_specified {L : alert.Levels} (level : alert.Level)
    (status : Z) : Prop :=
  (level = alert.OK → status = 0)
  ∧ (level = alert.Info → status = 0)
  ∧ (level = alert.Warning → status = 1)
  ∧ (level = alert.Critical → status = 2)
  ∧ (level ∉ [alert.OK; alert.Info; alert.Warning; alert.Critical] →
     status = 3).

(** ** Concrete runs *)

Module Examples.

#[local] Existing Instance alert.iota_levels.

(** A backend that answers every request with the status code given. *)
Definition backend (code : Z) : World :=
  {| time_Now_Unix := 1700000000;
     json_Marshal := λ _, Ok "{}";
     http_NewRequest_err := λ _ _, None;
     http_Client_Do := λ _, Ok {| http.Response.StatusCode := code |} |}.

Definition cfg_on : Config.t :=
  {| Config.Enabled := true; Config.URL := "http://sensu:8080/api/events";
     Config.Token := "Key 123"; Config.Namespace := "default";
     Config.Handlers := ["slack"] |}.

Definition cfg_off : Config.t :=
  {| Config.Enabled := false; Config.URL := "";
     Config.Token := ""; Config.Namespace := "default";
     Config.Handlers := [] |}.

Definition sink : Diagnostic.t := {| Diagnostic.ctx := [] |}.

Definition svc_on : Service.t := NewService cfg_on sink.
Definition svc_off : Service.t := NewService cfg_off sink.

(** A handler with a URL of its own, no entity and the entity tag
    ["host"]. *)
Definition route : handler.t :=
  {| handler.c :=
       {| HandlerConfig.URL := "http://other:9090";
          HandlerConfig.Namespace := "";
          HandlerConfig.Labels := ∅;
          HandlerConfig.Handlers := [];
          HandlerConfig.Check := "";
          HandlerConfig.Entity := "";
          HandlerConfig.EntityTag := "host" |};
     handler.diag := Diagnostic.WithContext sink [keyvalue.KV "task" "cpu"] |}.

(** The request that [svc_on] sends for a body ["{}"]. *)
Definition sent_request : http.Request.t :=
  {| http.Request.Method := "POST";
     http.Request.URL := "http://sensu:8080/api/events";
     http.Request.Header :=
       <["Content-Type" := ["application/json"]]>
         (<["Authorization" := ["Key 123"]]> ∅);
     http.Request.Body := "{}";
     http.Request.Timeout := Some 60000000000 |}.

Definition cpu_event : alert.Event.t :=
  {| alert.Event.State :=
       {| alert.EventState.ID := "cpu"; alert.EventState.Message := "cpu is high";
          alert.EventState.Level := alert.Critical |};
     alert.Event.Data := {| alert.EventData.Tags := {[ "host" := "db1" ]} |} |}.

End Examples.

(** ** Calls in sequence *)

(** The service after the calls [s.Update(calls[0])],
    [s.Update(calls[1])], ... made one after the other, whatever each
    returns. *)
Fixpoint Update_all {L : alert.Levels} (calls : list (list any))
    (s : Service.t) : Service.t :=
  match calls with
  | [] => s
  | newConfig :: rest => Update_all rest (Update newConfig s).1.2
  end.

(** How many times the body of a response has been closed in a run. *)
Definition bodies_closed (tr : list Effect) : nat :=
  length (omap (λ e, match e with Body_Close_call => Some tt | _ => None end)
               tr).

(** Worlds in which one of the calls fails. *)
Module Failures.

(** No backend answers: the transport fails. *)
Definition unreachable : World :=
  {| time_Now_Unix := 1700000000;
     json_Marshal := λ _, Ok "{}";
     http_NewRequest_err := λ _ _, None;
     http_Client_Do := λ _, Err "dial tcp: connection refused" |}.

(** [json.Marshal] fails. *)
Definition no_json : World :=
  {| time_Now_Unix := 1700000000;
     json_Marshal := λ _, Err "json: unsupported value";
     http_NewRequest_err := λ _ _, None;
     http_Client_Do := λ _, Ok {| http.Response.StatusCode := 200 |} |}.

(** [http.NewRequest] refuses every URL. *)
Definition no_url : World :=
  {| time_Now_Unix := 1700000000;
     json_Marshal := λ _, Ok "{}";
     http_NewRequest_err := λ _ _, Some "parse: invalid URL";
     http_Client_Do := λ _, Ok {| http.Response.StatusCode := 200 |} |}.

(** An enabled configuration that [Validate] refuses. *)
Definition cfg_no_url : Config.t :=
  {| Config.Enabled := true; Config.URL := ""; Config.Token := "";
     Config.Namespace := ""; Config.Handlers := [] |}.

(** The event that a service with the configuration [Examples.cfg_on]
    builds at time 1700000000 for the check "cpu" on the entity "db1"
    with the message "cpu is high", no namespace, no handlers and no
    labels passed, at the level Critical. *)
Definition cpu_post_event : PostEvent.t :=
  {| PostEvent.Entity :=
       {| PostEvent.Entity.EntityClass := "proxy";
          PostEvent.Entity.Metadata :=
            {| PostEvent.EntityMetadata.Name := "db1";
               PostEvent.EntityMetadata.Namespace := "default";
               PostEvent.EntityMetadata.Labels := ∅ |} |};
     PostEvent.Check :=
       {| PostEvent.Check.Output := "cpu is high";
          PostEvent.Check.Status := 2;
          PostEvent.Check.Metadata :=
            {| PostEvent.CheckMetadata.Name := "cpu";
               PostEvent.CheckMetadata.Labels := ∅ |};
          PostEvent.Check.Issued := 1700000000;
          PostEvent.Check.Executed := 1700000000;
          PostEvent.Check.Handlers := ["slack"] |} |}.

End Failures.

(** ** Properties *)

Ltac run_M :=
  unfold Test, Handle, Update, Open, Close;
  unfold Alert, config, configValue_Load,
    configValue_Store, get_diag, diag_Error, emit, http_NewRequest,
    mbind, M_bind, mret, M_ret.

(** Go's [code/100 != 2] singles out the codes outside of 200..299. *)
Lemma quot_100_not_2 (code : Z) : code `quot` 100 ≠ 2 ↔ ¬ (200 ≤ code ≤ 299).
Proof.
  split.
  - intros Hq [Hlo Hhi]. apply Hq.
    rewrite Z.quot_div_nonneg by lia.
    symmetry. apply (Z.div_unique code 100 2 (code - 200)); lia.
  - intros Hr Hq. apply Hr.
    destruct (Z.le_gt_cases 0 code) as [Hpos | Hneg].
    + rewrite Z.quot_div_nonneg in Hq by lia.
      pose proof (Z.div_mod code 100 ltac:(lia)) as Hdm.
      pose proof (Z.mod_pos_bound code 100 ltac:(lia)) as Hb.
      rewrite Hq in Hdm. lia.
    + pose proof (Z.quot_opp_l (- code) 100 ltac:(lia)) as Ho.
      rewrite Z.opp_involutive in Ho.
      pose proof (Z.quot_pos (- code) 100 ltac:(lia) ltac:(lia)). lia.
Qed.

Section properties.

Context {L : alert.Levels}.

(** The four constants are pairwise distinct. *)
Lemma Level_apart :
  alert.Info ≠ alert.OK ∧ alert.Warning ≠ alert.OK
  ∧ alert.Warning ≠ alert.Info ∧ alert.Critical ≠ alert.OK
  ∧ alert.Critical ≠ alert.Info ∧ alert.Critical ≠ alert.Warning.
Proof.
  pose proof alert.Level_distinct as H.
  rewrite !NoDup_cons, !not_elem_of_cons in H.
  destruct H as ((HOI & HOW & HOC & _) & (HIW & HIC & _) & (HWC & _) & _).
  repeat split; congruence.
Qed.

(** C7. [Config.Validate] returns an error exactly when the
    configuration is enabled and its URL is the empty string; a
    disabled configuration validates, whatever its URL. *)
Theorem Validate_error_iff (c : Config.t) :
  (is_Some (Config.Validate c)
     ↔ Config.Enabled c = true ∧ Config.URL c = "")
  ∧ (Config.Enabled c = false → Config.Validate c = None).
Proof.
  unfold Config.Validate.
  destruct (Config.Enabled c); simpl.
  - split; [|done]. case_bool_decide as Hurl.
    + split; [done | eauto].
    + split; [intros [e He]; done | intros [_ Hu]; done].
  - split; [|done]. split; [intros [e He]; done | intros [He _]; done].
Qed.

(** C3. When the configuration has [Enabled = false], [Alert] returns
    the error "service is not enabled", leaves the service as it is and
    calls nothing: no event is built and no request is sent. *)
Theorem Alert_disabled (w : World) (s : Service.t)
    (check entity message namespace : string) (handlers : list string)
    (labels : gmap string string) (level : alert.Level) :
  Config.Enabled (Service.configValue s) = false →
  Alert w check entity message namespace handlers labels level s
    = (Some (errors_New "service is not enabled"), s, [])
  ∧ events_built
      (Alert w check entity message namespace handlers labels level s).2 = []
  ∧ requests_sent
      (Alert w check entity message namespace handlers labels level s).2 = [].
Proof.
  intros Hoff.
  assert (Alert w check entity message namespace handlers labels level s
          = (Some (errors_New "service is not enabled"), s, [])) as ->.
  { run_M. rewrite Hoff. reflexivity. }
  done.
Qed.

(** C6. [Update] with a payload list whose length is not one returns
    the count error and leaves the service as it is; with exactly one
    payload, of type [Config], it returns nil and the stored
    configuration is that payload: the next [config()] reads it. *)
Theorem Update_count_and_replace (newConfig : list any) (s : Service.t) :
  (length newConfig ≠ 1%nat →
     Update newConfig s
     = (Some ("expected only one new config object, got "
              +:+ pretty (Z.of_nat (length newConfig))), s, []))
  ∧ (∀ c : Config.t, newConfig = [any_Config c] →
       (Update newConfig s).1.1 = None
       ∧ Service.configValue (Update newConfig s).1.2 = c
       ∧ (config (Update newConfig s).1.2).1.1 = c).
Proof.
  split.
  - intros Hlen. destruct newConfig as [|v [|v' rest]]; simpl in *; done.
  - intros c ->. done.
Qed.

(** C10. When [Update] returns an error, the service is left as it was:
    [config()] reads the configuration it read before the call. *)
Theorem Update_error_keeps_config (newConfig : list any) (s : Service.t)
    (err : error) :
  (Update newConfig s).1.1 = Some err →
  (Update newConfig s).1.2 = s
  ∧ (config (Update newConfig s).1.2).1.1 = (config s).1.1.
Proof.
  intros Herr.
  assert ((Update newConfig s).1.2 = s) as ->; [|done].
  destruct newConfig as [|v [|v' rest]]; try done.
  destruct v; done.
Qed.

(** On an enabled configuration a run of [Alert] starts as follows,
    whatever the world answers. *)
Ltac alert_enabled Hon :=
  run_M; simpl; rewrite Hon; simpl;
  repeat match goal with
    | |- context [match json_Marshal ?w ?ev with _ => _ end] =>
        destruct (json_Marshal w ev); simpl
    | |- context [match http_NewRequest_err ?w ?m ?u with _ => _ end] =>
        destruct (http_NewRequest_err w m u); simpl
    | |- context [match http_Client_Do ?w ?r with _ => _ end] =>
        destruct (http_Client_Do w r); simpl
    | |- context [bool_decide (?c `quot` 100 ≠ 2)] =>
        destruct (bool_decide (c `quot` 100 ≠ 2)); simpl
    end.

(** C2. On an enabled configuration [Alert] builds one event, and the
    status of its check is 0 for OK, 0 for Info, 1 for Warning, 2 for
    Critical and 3 for a level that is none of these. *)
Theorem Alert_status_of_level (w : World) (s : Service.t)
    (check entity message namespace : string) (handlers : list string)
    (labels : gmap string string) (level : alert.Level) :
  Config.Enabled (Service.configValue s) = true →
  ∃ event : PostEvent.t,
    events_built
      (Alert w check entity message namespace handlers labels level s).2
      = [event]
    ∧ status_as_specified level
        (PostEvent.Check.Status (PostEvent.Check event)).
Proof.
  intros Hon.
  destruct Level_apart as (HIO & HWO & HWI & HCO & HCI & HCW).
  eexists. split.
  - alert_enabled Hon; reflexivity.
  - unfold status_as_specified. simpl.
    repeat split.
    + intros ->. by rewrite decide_True.
    + intros ->. rewrite decide_False by done. by rewrite decide_True.
    + intros ->. rewrite !decide_False by done. by rewrite decide_True.
    + intros ->. rewrite !decide_False by done. by rewrite decide_True.
    + rewrite !not_elem_of_cons. intros (? & ? & ? & ? & _).
      by rewrite !decide_False.
Qed.

(** C4. On an enabled configuration the namespace of the event is the
    namespace passed when that is not empty and the namespace of the
    configuration when it is; the handlers of the event are the list
    passed when that is not empty and the list of the configuration
    when it is.  Nothing is assumed of the configuration's own values. *)
Theorem Alert_namespace_and_handlers (w : World) (s : Service.t)
    (check entity message namespace : string) (handlers : list string)
    (labels : gmap string string) (level : alert.Level) :
  Config.Enabled (Service.configValue s) = true →
  ∃ event : PostEvent.t,
    events_built
      (Alert w check entity message namespace handlers labels level s).2
      = [event]
    ∧ (namespace ≠ "" →
         PostEvent.EntityMetadata.Namespace
           (PostEvent.Entity.Metadata (PostEvent.Entity event)) = namespace)
    ∧ (namespace = "" →
         PostEvent.EntityMetadata.Namespace
           (PostEvent.Entity.Metadata (PostEvent.Entity event))
         = Config.Namespace (Service.configValue s))
    ∧ (handlers ≠ [] →
         PostEvent.Check.Handlers (PostEvent.Check event) = handlers)
    ∧ (handlers = [] →
         PostEvent.Check.Handlers (PostEvent.Check event)
         = Config.Handlers (Service.configValue s)).
Proof.
  intros Hon.
  eexists. split.
  - alert_enabled Hon; reflexivity.
  - simpl. repeat split.
    + intros Hns. by rewrite bool_decide_eq_true_2.
    + intros ->. done.
    + intros Hh. rewrite bool_decide_eq_true_2; [done|].
      destruct handlers; [done | simpl; lia].
    + intros ->. done.
Qed.

(** C9. [Test] on the options of [TestOptions], with an enabled
    configuration, builds one event: its check has status 2 and output
    "testMessage", and its entity is named "testEntity". *)
Theorem Test_builds_critical_event (w : World) (s : Service.t) :
  Config.Enabled (Service.configValue s) = true →
  ∃ event : PostEvent.t,
    events_built (Test w TestOptions s).2 = [event]
    ∧ PostEvent.Check.Status (PostEvent.Check event) = 2
    ∧ PostEvent.EntityMetadata.Name
        (PostEvent.Entity.Metadata (PostEvent.Entity event)) = "testEntity"
    ∧ PostEvent.Check.Output (PostEvent.Check event) = "testMessage".
Proof.
  intros Hon.
  destruct Level_apart as (HIO & HWO & HWI & HCO & HCI & HCW).
  eexists. split.
  - unfold TestOptions. alert_enabled Hon; reflexivity.
  - simpl. rewrite !decide_False by done. by rewrite decide_True.
Qed.

(** Every run of [Alert], by the configuration and the answers of the
    world. *)
Ltac alert_cases s :=
  run_M; simpl;
  destruct (Config.Enabled (Service.configValue s)); simpl;
  repeat match goal with
    | |- context [match json_Marshal ?w ?ev with _ => _ end] =>
        destruct (json_Marshal w ev); simpl
    | |- context [match http_NewRequest_err ?w ?m ?u with _ => _ end] =>
        destruct (http_NewRequest_err w m u); simpl
    end.

(** C1. When the request that [Alert] sends is answered (the transport
    succeeds) with a status code outside of 200..299, [Alert] returns
    nil and reports once to the diagnostic sink of the service, with
    the code in the message and as the value of the key "code". *)
Theorem Alert_non_2xx_reported_and_nil (w : World) (s : Service.t)
    (check entity message namespace : string) (handlers : list string)
    (labels : gmap string string) (level : alert.Level)
    (req : http.Request.t) (resp : http.Response.t) :
  req ∈ requests_sent
          (Alert w check entity message namespace handlers labels level s).2 →
  http_Client_Do w req = Ok resp →
  ¬ (200 ≤ http.Response.StatusCode resp ≤ 299) →
  (Alert w check entity message namespace handlers labels level s).1.1 = None
  ∧ diag_reports
      (Alert w check entity message namespace handlers labels level s).2
    = [(Service.diag s,
        "POST returned non 2xx status code ("
          +:+ pretty (http.Response.StatusCode resp) +:+ ")",
        None,
        [keyvalue.KV "code" (pretty (http.Response.StatusCode resp))])].
Proof.
  intros Hin Hdo Hcode. revert Hin.
  alert_cases s; try (intros Hin; by apply elem_of_nil in Hin).
  match goal with
  | |- context [match http_Client_Do ?w ?r with _ => _ end] =>
      destruct (http_Client_Do w r) as [resp0 | err0] eqn:Hsent; simpl
  end.
  - destruct (bool_decide _) eqn:Hnot2; simpl;
      intros Hin; apply list_elem_of_singleton in Hin; subst req;
      rewrite Hdo in Hsent; injection Hsent as <-.
    + done.
    + apply bool_decide_eq_false in Hnot2.
      exfalso. apply Hnot2. by apply quot_100_not_2.
  - intros Hin. apply list_elem_of_singleton in Hin. subst req.
    congruence.
Qed.

(** C5. [Handle] passes to [Alert] an entity resolved as follows: the
    entity of the handler configuration when that is not empty,
    whatever the tags; else, when an entity tag is configured and the
    tags of the event have it, the value of that tag; else the empty
    string.  [Handle] calls [Alert] with that entity in every case, the
    empty one included, and only reports an error that [Alert]
    returns; on an enabled configuration the entity is the name of the
    event that is built. *)
Theorem Handle_resolves_entity (w : World) (h : handler.t)
    (event : alert.Event.t) (s : Service.t) :
  let hc := handler.c h in
  let tags := alert.EventData.Tags (alert.Event.Data event) in
  let st := alert.Event.State event in
  ∃ entity : string,
    (HandlerConfig.Entity hc ≠ "" → entity = HandlerConfig.Entity hc)
    ∧ (HandlerConfig.Entity hc = "" → HandlerConfig.EntityTag hc ≠ "" →
         ∀ e, tags !! HandlerConfig.EntityTag hc = Some e → entity = e)
    ∧ (HandlerConfig.Entity hc = "" →
         HandlerConfig.EntityTag hc = ""
         ∨ tags !! HandlerConfig.EntityTag hc = None →
         entity = "")
    ∧ Handle w h event s
      = (let '(err, s', tr) :=
           Alert w (alert.EventState.ID st) entity
                 (alert.EventState.Message st)
                 (HandlerConfig.Namespace hc) (HandlerConfig.Handlers hc)
                 (HandlerConfig.Labels hc) (alert.EventState.Level st) s in
         (tt, s',
          tr ++ match err with
                | Some e =>
                    [diag_Error_call (handler.diag h)
                       "failed to send event to Sensu Go" (Some e) []]
                | None => []
                end))
    ∧ (Config.Enabled (Service.configValue s) = true →
         ∃ ev : PostEvent.t,
           events_built (Handle w h event s).2 = [ev]
           ∧ PostEvent.EntityMetadata.Name
               (PostEvent.Entity.Metadata (PostEvent.Entity ev)) = entity).
Proof.
  intros hc tags st.
  exists (if bool_decide (HandlerConfig.Entity hc = "")
             && bool_decide (HandlerConfig.EntityTag hc ≠ "")
          then match tags !! HandlerConfig.EntityTag hc with
               | Some e => e
               | None => HandlerConfig.Entity hc
               end
          else HandlerConfig.Entity hc).
  subst hc tags st. split_and!.
  - intros He. by rewrite bool_decide_eq_false_2.
  - intros He Htag e Hlook. rewrite He, Hlook. simpl.
    by rewrite bool_decide_eq_true_2.
  - intros He Hor. rewrite He. simpl.
    case_bool_decide as Htag; simpl; [|done].
    destruct Hor as [Hnone | Hnone]; [done | by rewrite Hnone].
  - unfold Handle, mbind, M_bind.
    match goal with
    | |- context [Alert ?a ?b ?c ?d ?e ?f ?g ?i ?j] =>
        destruct (Alert a b c d e f g i j) as [[[err|] s'] tr]
    end; reflexivity.
  - intros Hon. eexists. split.
    + alert_enabled Hon; reflexivity.
    + reflexivity.
Qed.

(** C8. Every request that [Handle] sends is a POST to the URL of the
    service configuration, and the URL of the handler configuration is
    not read: with any other URL in its place, empty or not, [Handle]
    does the same. *)
Theorem Handle_posts_to_config_URL (w : World) (h : handler.t)
    (event : alert.Event.t) (s : Service.t) :
  (∀ req : http.Request.t,
     req ∈ requests_sent (Handle w h event s).2 →
     http.Request.Method req = "POST"
     ∧ http.Request.URL req = Config.URL (Service.configValue s))
  ∧ (∀ url : string,
       Handle w
         {| handler.c :=
              {| HandlerConfig.URL := url;
                 HandlerConfig.Namespace := HandlerConfig.Namespace (handler.c h);
                 HandlerConfig.Labels := HandlerConfig.Labels (handler.c h);
                 HandlerConfig.Handlers := HandlerConfig.Handlers (handler.c h);
                 HandlerConfig.Check := HandlerConfig.Check (handler.c h);
                 HandlerConfig.Entity := HandlerConfig.Entity (handler.c h);
                 HandlerConfig.EntityTag := HandlerConfig.EntityTag (handler.c h) |};
            handler.diag := handler.diag h |} event s
       = Handle w h event s).
Proof.
  split; [|done].
  intros req.
  alert_cases s; try (intros Hin; by apply elem_of_nil in Hin).
  match goal with
  | |- context [match http_Client_Do ?w ?r with _ => _ end] =>
      destruct (http_Client_Do w r); simpl
  end.
  - destruct (bool_decide _); simpl;
      intros Hin; apply list_elem_of_singleton in Hin; by subst req.
  - intros Hin; apply list_elem_of_singleton in Hin; by subst req.
Qed.

End properties.

(** ** The properties at concrete runs *)

Section runs.

Import Examples.

#[local] Existing Instance alert.iota_levels.

(** A backend that answers 500: [Alert] returns nil and the sink has one
    report, which carries "500". *)
Lemma Alert_non_2xx_at_500 :
  let run := Alert (backend 500) "cpu" "db1" "cpu is high" "" [] ∅
                   alert.Critical svc_on in
  (sent_request ∈ requests_sent run.2
   ∧ http_Client_Do (backend 500) sent_request
     = Ok {| http.Response.StatusCode := 500 |}
   ∧ ¬ (200 ≤ 500 ≤ 299))
  ∧ run.1.1 = None
  ∧ diag_reports run.2
    = [(sink, "POST returned non 2xx status code (500)", None,
        [keyvalue.KV "code" "500"])].
Proof.
  intros run.
  assert (sent_request ∈ requests_sent run.2) as Hin.
  { vm_compute. constructor. }
  assert (¬ (200 ≤ 500 ≤ 299)) as Hcode by lia.
  split; [split_and!; [exact Hin | reflexivity | exact Hcode] |].
  exact (Alert_non_2xx_reported_and_nil (backend 500) svc_on
           "cpu" "db1" "cpu is high" "" [] ∅ alert.Critical
           sent_request {| http.Response.StatusCode := 500 |}
           Hin eq_refl Hcode).
Defined.

Lemma Alert_status_of_level_at_Warning :
  Config.Enabled (Service.configValue svc_on) = true
  ∧ ∃ event : PostEvent.t,
      events_built
        (Alert (backend 200) "cpu" "db1" "cpu is high" "" [] ∅
               alert.Warning svc_on).2 = [event]
      ∧ status_as_specified alert.Warning
          (PostEvent.Check.Status (PostEvent.Check event)).
Proof.
  split; [reflexivity|].
  exact (Alert_status_of_level (backend 200) svc_on
           "cpu" "db1" "cpu is high" "" [] ∅ alert.Warning eq_refl).
Defined.

Lemma Alert_disabled_at_svc_off :
  Config.Enabled (Service.configValue svc_off) = false
  ∧ Alert (backend 200) "cpu" "db1" "cpu is high" "" [] ∅
          alert.Critical svc_off
    = (Some (errors_New "service is not enabled"), svc_off, []).
Proof.
  split; [reflexivity|].
  exact (proj1 (Alert_disabled (backend 200) svc_off
                  "cpu" "db1" "cpu is high" "" [] ∅ alert.Critical eq_refl)).
Defined.

Lemma Alert_namespace_and_handlers_at_override :
  Config.Enabled (Service.configValue svc_on) = true
  ∧ ∃ event : PostEvent.t,
      events_built
        (Alert (backend 200) "cpu" "db1" "cpu is high" "ops" [] ∅
               alert.Critical svc_on).2 = [event]
      ∧ PostEvent.EntityMetadata.Namespace
          (PostEvent.Entity.Metadata (PostEvent.Entity event)) = "ops"
      ∧ PostEvent.Check.Handlers (PostEvent.Check event) = ["slack"].
Proof.
  split; [reflexivity|].
  destruct (Alert_namespace_and_handlers (backend 200) svc_on
              "cpu" "db1" "cpu is high" "ops" [] ∅ alert.Critical eq_refl)
    as (event & Hev & Hns & _ & _ & Hh).
  exists event. split_and!; [exact Hev | by apply Hns | by apply Hh].
Defined.

Lemma Test_builds_critical_event_at_svc_on :
  Config.Enabled (Service.configValue svc_on) = true
  ∧ ∃ event : PostEvent.t,
      events_built (Test (backend 200) TestOptions svc_on).2 = [event]
      ∧ PostEvent.Check.Status (PostEvent.Check event) = 2
      ∧ PostEvent.EntityMetadata.Name
          (PostEvent.Entity.Metadata (PostEvent.Entity event)) = "testEntity"
      ∧ PostEvent.Check.Output (PostEvent.Check event) = "testMessage".
Proof.
  split; [reflexivity|].
  exact (Test_builds_critical_event (backend 200) svc_on eq_refl).
Defined.

Lemma Update_error_keeps_config_at_two_payloads :
  (Update [any_Config cfg_off; any_Config cfg_off] svc_on).1.1
    = Some "expected only one new config object, got 2"
  ∧ (Update [any_Config cfg_off; any_Config cfg_off] svc_on).1.2 = svc_on
  ∧ (config (Update [any_Config cfg_off; any_Config cfg_off] svc_on).1.2).1.1
    = cfg_on.
Proof.
  split; [reflexivity|].
  exact (Update_error_keeps_config
           [any_Config cfg_off; any_Config cfg_off] svc_on
           "expected only one new config object, got 2" eq_refl).
Defined.

(** An update with a payload that is not a [Config] is refused too. *)
Example Update_wrong_type :
  Update [any_other "int"] svc_on
  = (Some "expected config object to be of type sensugo.Config, got int",
     svc_on, []).
Proof. reflexivity. Qed.

(** The entity of the event is the value of the tag "host". *)
Example Handle_entity_from_tag :
  events_built (Handle (backend 200) route cpu_event svc_on).2
  = [ {| PostEvent.Entity :=
           {| PostEvent.Entity.EntityClass := "proxy";
              PostEvent.Entity.Metadata :=
                {| PostEvent.EntityMetadata.Name := "db1";
                   PostEvent.EntityMetadata.Namespace := "default";
                   PostEvent.EntityMetadata.Labels := ∅ |} |};
         PostEvent.Check :=
           {| PostEvent.Check.Output := "cpu is high";
              PostEvent.Check.Status := 2;
              PostEvent.Check.Metadata :=
                {| PostEvent.CheckMetadata.Name := "cpu";
                   PostEvent.CheckMetadata.Labels := ∅ |};
              PostEvent.Check.Issued := 1700000000;
              PostEvent.Check.Executed := 1700000000;
              PostEvent.Check.Handlers := ["slack"] |} |} ].
Proof. reflexivity. Qed.

(** The request of that run goes to the URL of the service, not to the
    URL of the handler. *)
Example Handle_request_URL :
  http.Request.URL <$> requests_sent
    (Handle (backend 200) route cpu_event svc_on).2
  = ["http://sensu:8080/api/events"].
Proof. reflexivity. Qed.

(** A handler with the entity "fixed": the tags are not looked at. *)
Example Handle_entity_fixed :
  let fixed :=
    {| handler.c :=
         {| HandlerConfig.URL := ""; HandlerConfig.Namespace := "";
            HandlerConfig.Labels := ∅; HandlerConfig.Handlers := [];
            HandlerConfig.Check := ""; HandlerConfig.Entity := "fixed";
            HandlerConfig.EntityTag := "host" |};
       handler.diag := sink |} in
  (λ ev, PostEvent.EntityMetadata.Name
           (PostEvent.Entity.Metadata (PostEvent.Entity ev)))
    <$> events_built (Handle (backend 200) fixed cpu_event svc_on).2
  = ["fixed"].
Proof. reflexivity. Qed.

(** A backend that answers 500 to a handler: nothing is reported through
    the handler's sink for an error of [Alert], as there is none; the one
    report is that of the service, and it carries "500". *)
Example Handle_at_500 :
  diag_reports (Handle (backend 500) route cpu_event svc_on).2
  = [(sink, "POST returned non 2xx status code (500)", None,
      [keyvalue.KV "code" "500"])].
Proof. reflexivity. Qed.

(** On a disabled service the handler reports the error of [Alert] and
    sends nothing. *)
Example Handle_disabled :
  Handle (backend 200) route cpu_event svc_off
  = (tt, svc_off,
     [diag_Error_call (handler.diag route) "failed to send event to Sensu Go"
        (Some "service is not enabled") []]).
Proof. reflexivity. Qed.

End runs.

(** ** Further properties of the delivery *)

(** Every run of [Alert], by the configuration and by each answer of the
    world, with the answers kept as equations. *)
Ltac alert_all s :=
  run_M; simpl;
  destruct (Config.Enabled (Service.configValue s)) eqn:?; simpl;
  repeat match goal with
    | |- context [match json_Marshal ?w ?ev with _ => _ end] =>
        destruct (json_Marshal w ev) eqn:?; simpl
    | |- context [match http_NewRequest_err ?w ?m ?u with _ => _ end] =>
        destruct (http_NewRequest_err w m u) eqn:?; simpl
    | |- context [match http_Client_Do ?w ?r with _ => _ end] =>
        destruct (http_Client_Do w r) eqn:?; simpl
    | |- context [bool_decide (?c `quot` 100 ≠ 2)] =>
        destruct (bool_decide (c `quot` 100 ≠ 2)) eqn:?; simpl
    end.

(** A hypothesis [x ∈ l] for a list [l] that the run has made explicit. *)
Ltac in_run H :=
  first [ by apply elem_of_nil in H
        | apply list_elem_of_singleton in H; subst ].

(** The answers kept as equations agree with the hypotheses, or not. *)
Ltac answers :=
  first [ congruence
        | repeat match goal with
            | H1 : ?x = _, H2 : ?x = _ |- _ => rewrite H1 in H2
            end;
          by simplify_eq ].

Section delivery.

Context {L : alert.Levels}.

(** X1. When the transport fails on the request that [Alert] sends,
    [Alert] returns the error of the transport, reports it once to the
    sink of the service and closes no body. *)
Theorem Alert_transport_error (w : World) (s : Service.t)
    (check entity message namespace : string) (handlers : list string)
    (labels : gmap string string) (level : alert.Level)
    (req : http.Request.t) (err : error) :
  req ∈ requests_sent
          (Alert w check entity message namespace handlers labels level s).2 →
  http_Client_Do w req = Err err →
  (Alert w check entity message namespace handlers labels level s).1.1
    = Some err
  ∧ diag_reports
      (Alert w check entity message namespace handlers labels level s).2
    = [(Service.diag s, "Failed to POST to Sensu Go", Some err, [])]
  ∧ bodies_closed
      (Alert w check entity message namespace handlers labels level s).2
    = 0%nat.
Proof.
  intros Hin Hdo. revert Hin.
  alert_all s; intros Hin; in_run Hin; answers.
Qed.

(** X2. When the request is answered with a status code in 200..299,
    [Alert] returns nil and reports nothing. *)
Theorem Alert_2xx_silent (w : World) (s : Service.t)
    (check entity message namespace : string) (handlers : list string)
    (labels : gmap string string) (level : alert.Level)
    (req : http.Request.t) (resp : http.Response.t) :
  req ∈ requests_sent
          (Alert w check entity message namespace handlers labels level s).2 →
  http_Client_Do w req = Ok resp →
  200 ≤ http.Response.StatusCode resp ≤ 299 →
  (Alert w check entity message namespace handlers labels level s).1.1 = None
  ∧ diag_reports
      (Alert w check entity message namespace handlers labels level s).2 = [].
Proof.
  intros Hin Hdo Hcode. revert Hin.
  alert_all s; intros Hin; in_run Hin; try answers.
  match goal with
  | H : bool_decide _ = true |- _ => apply bool_decide_eq_true in H as Hq
  end.
  apply quot_100_not_2 in Hq.
  match goal with
  | H1 : http_Client_Do _ _ = Ok ?r |- _ =>
      rewrite Hdo in H1; injection H1 as <-
  end.
  contradiction.
Qed.

(** X3. When [json.Marshal] fails on the event built, [Alert] returns
    that error as it is, sends no request and reports nothing. *)
Theorem Alert_marshal_error (w : World) (s : Service.t)
    (check entity message namespace : string) (handlers : list string)
    (labels : gmap string string) (level : alert.Level)
    (event : PostEvent.t) (err : error) :
  event ∈ events_built
            (Alert w check entity message namespace handlers labels level s).2 →
  json_Marshal w event = Err err →
  Alert w check entity message namespace handlers labels level s
    = (Some err, s, [json_Marshal_call event]).
Proof.
  intros Hin Hm. revert Hin.
  alert_all s; intros Hin; in_run Hin; answers.
Qed.

(** X4. When [http.NewRequest] refuses the URL of the configuration,
    [Alert] returns the error with the prefix "failed to create POST
    request: ", sends no request and reports nothing. *)
Theorem Alert_NewRequest_error (w : World) (s : Service.t)
    (check entity message namespace : string) (handlers : list string)
    (labels : gmap string string) (level : alert.Level)
    (event : PostEvent.t) (data : string) (err : error) :
  event ∈ events_built
            (Alert w check entity message namespace handlers labels level s).2 →
  json_Marshal w event = Ok data →
  http_NewRequest_err w "POST" (Config.URL (Service.configValue s))
    = Some err →
  Alert w check entity message namespace handlers labels level s
    = (Some ("failed to create POST request: " +:+ err), s,
       [json_Marshal_call event]).
Proof.
  intros Hin Hm Hurl. revert Hin.
  alert_all s; intros Hin; in_run Hin; answers.
Qed.

(** X5. Every request that [Alert] sends is a POST to the URL of the
    configuration whose body is what [json.Marshal] gave for the one
    event built, with a deadline of one minute and two headers:
    [Authorization], the token of the configuration as it is, and
    [Content-Type], "application/json". *)
Theorem Alert_request_shape (w : World) (s : Service.t)
    (check entity message namespace : string) (handlers : list string)
    (labels : gmap string string) (level : alert.Level)
    (req : http.Request.t) :
  req ∈ requests_sent
          (Alert w check entity message namespace handlers labels level s).2 →
  http.Request.Method req = "POST"
  ∧ http.Request.URL req = Config.URL (Service.configValue s)
  ∧ http.Request.Timeout req = Some 60000000000
  ∧ http.Request.Header req !! "Authorization"
    = Some [Config.Token (Service.configValue s)]
  ∧ http.Request.Header req !! "Content-Type" = Some ["application/json"]
  ∧ (∀ key : string, key ≠ "Authorization" → key ≠ "Content-Type" →
       http.Request.Header req !! key = None)
  ∧ ∃ event : PostEvent.t,
      events_built
        (Alert w check entity message namespace handlers labels level s).2
      = [event]
      ∧ json_Marshal w event = Ok (http.Request.Body req).
Proof.
  assert (∀ (tok : string) (body : string) (r : http.Request.t),
            r = http.Request.WithTimeout (1 * time_Minute)
                  (http.Request.Header_Set "Content-Type" "application/json"
                     (http.Request.Header_Set "Authorization" tok
                        {| http.Request.Method := "POST";
                           http.Request.URL := Config.URL (Service.configValue s);
                           http.Request.Header := ∅;
                           http.Request.Body := body;
                           http.Request.Timeout := None |})) →
            http.Request.Method r = "POST"
            ∧ http.Request.URL r = Config.URL (Service.configValue s)
            ∧ http.Request.Timeout r = Some 60000000000
            ∧ http.Request.Header r !! "Authorization" = Some [tok]
            ∧ http.Request.Header r !! "Content-Type"
              = Some ["application/json"]
            ∧ (∀ key : string, key ≠ "Authorization" → key ≠ "Content-Type" →
                 http.Request.Header r !! key = None)
            ∧ http.Request.Body r = body) as Hshape.
  { intros tok body r ->.
    unfold http.Request.WithTimeout, http.Request.Header_Set.
    cbn [http.Request.Method http.Request.URL http.Request.Header
         http.Request.Body http.Request.Timeout].
    split_and!.
    - reflexivity.
    - reflexivity.
    - reflexivity.
    - rewrite lookup_insert_ne by done. by rewrite lookup_insert_eq.
    - by rewrite lookup_insert_eq.
    - intros key Ha Hc. by rewrite !lookup_insert_ne, lookup_empty.
    - reflexivity. }
  intros Hin. revert Hin.
  alert_all s; intros Hin; in_run Hin;
    match goal with
    | |- context [http.Request.Header_Set "Authorization" ?tok
                    {| http.Request.Method := _; http.Request.URL := _;
                       http.Request.Header := _; http.Request.Body := ?b;
                       http.Request.Timeout := _ |}] =>
        destruct (Hshape tok b _ eq_refl)
          as (Hm & Hu & Ht & Ha & Hc & Hk & Hb)
    end;
    (split_and!; [exact Hm | exact Hu | exact Ht | exact Ha | exact Hc
                 | exact Hk | eexists; split; [reflexivity | by rewrite Hb] ]).
Qed.

(** X6. The event that [Alert] builds has the entity class "proxy", the
    entity and the check named as passed, the message as output, the
    labels passed on the entity and on the check alike, and the time of
    the call as both its issue and its execution time. *)
Theorem Alert_event_fields (w : World) (s : Service.t)
    (check entity message namespace : string) (handlers : list string)
    (labels : gmap string string) (level : alert.Level)
    (event : PostEvent.t) :
  event ∈ events_built
            (Alert w check entity message namespace handlers labels level s).2 →
  PostEvent.Entity.EntityClass (PostEvent.Entity event) = "proxy"
  ∧ PostEvent.EntityMetadata.Name
      (PostEvent.Entity.Metadata (PostEvent.Entity event)) = entity
  ∧ PostEvent.EntityMetadata.Labels
      (PostEvent.Entity.Metadata (PostEvent.Entity event)) = labels
  ∧ PostEvent.CheckMetadata.Name
      (PostEvent.Check.Metadata (PostEvent.Check event)) = check
  ∧ PostEvent.CheckMetadata.Labels
      (PostEvent.Check.Metadata (PostEvent.Check event)) = labels
  ∧ PostEvent.Check.Output (PostEvent.Check event) = message
  ∧ PostEvent.Check.Issued (PostEvent.Check event) = time_Now_Unix w
  ∧ PostEvent.Check.Executed (PostEvent.Check event)
    = PostEvent.Check.Issued (PostEvent.Check event).
Proof.
  intros Hin. revert Hin.
  alert_all s; intros Hin; in_run Hin; done.
Qed.

(** X7. No delivery writes the service: after [Alert], [Test] and
    [Handle] the stored configuration and the sink are what they were,
    whatever the world answered. *)
Theorem Delivery_keeps_service (w : World) (s : Service.t) :
  (∀ (check entity message namespace : string) (handlers : list string)
     (labels : gmap string string) (level : alert.Level),
     (Alert w check entity message namespace handlers labels level s).1.2 = s)
  ∧ (∀ options : any, (Test w options s).1.2 = s)
  ∧ (∀ (h : handler.t) (event : alert.Event.t),
       (Handle w h event s).1.2 = s).
Proof.
  split_and!.
  - intros. alert_all s; reflexivity.
  - intros [c | o | n]; [reflexivity | | reflexivity].
    alert_all s; reflexivity.
  - intros. alert_all s; reflexivity.
Qed.

(** X8. [Alert] does each thing at most once in a call: it builds at most
    one event, sends at most one request (it does not retry), makes at
    most one report and closes at most one body. *)
Theorem Alert_at_most_once (w : World) (s : Service.t)
    (check entity message namespace : string) (handlers : list string)
    (labels : gmap string string) (level : alert.Level) :
  let tr := (Alert w check entity message namespace handlers labels level s).2
  in
  (length (events_built tr) ≤ 1)%nat
  ∧ (length (requests_sent tr) ≤ 1)%nat
  ∧ (length (diag_reports tr) ≤ 1)%nat
  ∧ (bodies_closed tr ≤ 1)%nat.
Proof.
  alert_all s; cbv [bodies_closed]; simpl; lia.
Qed.

(** X9. The body of the response is closed once when [Alert] returns nil
    and is not closed when [Alert] returns an error. *)
Theorem Alert_closes_body_iff_nil (w : World) (s : Service.t)
    (check entity message namespace : string) (handlers : list string)
    (labels : gmap string string) (level : alert.Level) :
  bodies_closed
    (Alert w check entity message namespace handlers labels level s).2
  = match (Alert w check entity message namespace handlers labels level s).1.1
    with
    | None => 1%nat
    | Some _ => 0%nat
    end.
Proof.
  alert_all s; reflexivity.
Qed.

(** X10. [Alert] returns nil exactly when the request it sent was
    answered, with whatever status code: an error before the request, or
    of the transport, is returned; a status code is not. *)
Theorem Alert_nil_iff_answered (w : World) (s : Service.t)
    (check entity message namespace : string) (handlers : list string)
    (labels : gmap string string) (level : alert.Level) :
  (Alert w check entity message namespace handlers labels level s).1.1 = None
  ↔ ∃ (req : http.Request.t) (resp : http.Response.t),
      req ∈ requests_sent
              (Alert w check entity message namespace handlers labels level s).2
      ∧ http_Client_Do w req = Ok resp.
Proof.
  alert_all s; split;
    try (intros Hnil; discriminate Hnil);
    try (intros (req & resp & Hin & Hdo); in_run Hin; answers);
    intros _; do 2 eexists; (split; [apply list_elem_of_singleton; reflexivity|]);
    eassumption.
Qed.

(** X11. On a configuration that [Validate] accepts, no request goes to
    the empty URL. *)
Theorem Alert_valid_config_URL (w : World) (s : Service.t)
    (check entity message namespace : string) (handlers : list string)
    (labels : gmap string string) (level : alert.Level)
    (req : http.Request.t) :
  Config.Validate (Service.configValue s) = None →
  req ∈ requests_sent
          (Alert w check entity message namespace handlers labels level s).2 →
  http.Request.URL req ≠ "".
Proof.
  unfold Config.Validate. intros Hval Hin. revert Hval Hin.
  alert_all s; intros Hval Hin; in_run Hin;
    simpl; intros Hurl; rewrite Hurl in Hval; done.
Qed.

(** X12. [Test] on options that are not a [*testOptions] returns an error
    that names their type, and does nothing else. *)
Theorem Test_rejects_other_options (w : World) (s : Service.t)
    (options : any) :
  (∀ o : testOptions.t, options ≠ any_testOptions_ptr o) →
  Test w options s
  = (Some ("unexpected options type " +:+ type_name_of options), s, []).
Proof.
  intros Hnot. destruct options as [c | o | n]; [reflexivity | | reflexivity].
  by destruct (Hnot o).
Qed.

End delivery.

(** ** Further properties of the handler *)

Section handling.

Context {L : alert.Levels}.

(** X13. A failure of the transport is reported twice when the delivery
    goes through a handler: once by [Alert] to the sink of the service,
    and once by [Handle] to the sink of the handler, with the same
    error. *)
Theorem Handle_transport_error_reported_twice (w : World) (h : handler.t)
    (event : alert.Event.t) (s : Service.t)
    (req : http.Request.t) (err : error) :
  req ∈ requests_sent (Handle w h event s).2 →
  http_Client_Do w req = Err err →
  diag_reports (Handle w h event s).2
  = [(Service.diag s, "Failed to POST to Sensu Go", Some err, []);
     (handler.diag h, "failed to send event to Sensu Go", Some err, [])].
Proof.
  intros Hin Hdo. revert Hin.
  alert_all s; intros Hin; in_run Hin; answers.
Qed.

(** X14. On a disabled service [Handle] does one thing: it reports the
    error "service is not enabled" to the sink of the handler. *)
Theorem Handle_on_disabled_service (w : World) (h : handler.t)
    (event : alert.Event.t) (s : Service.t) :
  Config.Enabled (Service.configValue s) = false →
  Handle w h event s
  = (tt, s,
     [diag_Error_call (handler.diag h) "failed to send event to Sensu Go"
        (Some (errors_New "service is not enabled")) []]).
Proof.
  intros Hoff. run_M. simpl. rewrite Hoff. reflexivity.
Qed.

(** X15. When the request of [Handle] is answered, the sink of the
    handler gets nothing: there is no report for a status code in
    200..299, and for any other code there is the one report of [Alert]
    to the sink of the service. *)
Theorem Handle_answered_reports (w : World) (h : handler.t)
    (event : alert.Event.t) (s : Service.t)
    (req : http.Request.t) (resp : http.Response.t) :
  req ∈ requests_sent (Handle w h event s).2 →
  http_Client_Do w req = Ok resp →
  diag_reports (Handle w h event s).2
  = if bool_decide (200 ≤ http.Response.StatusCode resp ≤ 299) then []
    else [(Service.diag s,
           "POST returned non 2xx status code ("
             +:+ pretty (http.Response.StatusCode resp) +:+ ")",
           None,
           [keyvalue.KV "code" (pretty (http.Response.StatusCode resp))])].
Proof.
  intros Hin Hdo. revert Hin.
  alert_all s; intros Hin; in_run Hin; try answers;
    match goal with
    | H1 : http_Client_Do _ _ = Ok ?r |- _ =>
        rewrite Hdo in H1; injection H1 as <-
    end;
    match goal with
    | H : bool_decide _ = true |- _ =>
        apply bool_decide_eq_true, quot_100_not_2 in H;
        by rewrite bool_decide_eq_false_2
    | H : bool_decide _ = false |- _ =>
        apply bool_decide_eq_false in H;
        rewrite bool_decide_eq_true_2; [done|];
        destruct (decide (200 ≤ http.Response.StatusCode resp ≤ 299))
          as [Hin2 | Hout]; [done|];
        by apply quot_100_not_2 in Hout
    end.
Qed.

(** X16. The check of the event that [Handle] has built is named by the
    ID of the alert event and carries its message and the labels of the
    handler configuration; the field [Check] of the handler configuration
    is not read: with any other string in its place [Handle] does the
    same. *)
Theorem Handle_check_is_event_ID (w : World) (h : handler.t)
    (event : alert.Event.t) (s : Service.t) :
  (∀ ev : PostEvent.t,
     ev ∈ events_built (Handle w h event s).2 →
     PostEvent.CheckMetadata.Name
       (PostEvent.Check.Metadata (PostEvent.Check ev))
     = alert.EventState.ID (alert.Event.State event)
     ∧ PostEvent.Check.Output (PostEvent.Check ev)
       = alert.EventState.Message (alert.Event.State event)
     ∧ PostEvent.CheckMetadata.Labels
         (PostEvent.Check.Metadata (PostEvent.Check ev))
       = HandlerConfig.Labels (handler.c h))
  ∧ (∀ check : string,
       Handle w
         {| handler.c :=
              {| HandlerConfig.URL := HandlerConfig.URL (handler.c h);
                 HandlerConfig.Namespace := HandlerConfig.Namespace (handler.c h);
                 HandlerConfig.Labels := HandlerConfig.Labels (handler.c h);
                 HandlerConfig.Handlers := HandlerConfig.Handlers (handler.c h);
                 HandlerConfig.Check := check;
                 HandlerConfig.Entity := HandlerConfig.Entity (handler.c h);
                 HandlerConfig.EntityTag := HandlerConfig.EntityTag (handler.c h) |};
            handler.diag := handler.diag h |} event s
       = Handle w h event s).
Proof.
  split; [|done].
  intros ev.
  alert_all s; intros Hin; in_run Hin; done.
Qed.


End handling.

(** ** Further properties of the configuration *)

Section updating.

Context {L : alert.Levels}.

(** X18. [Update] returns nil exactly for a list of one payload of type
    [Config], whatever that configuration is: it does not validate it.
    It calls nothing outside and never changes the sink. *)
Theorem Update_nil_iff (newConfig : list any) (s : Service.t) :
  ((Update newConfig s).1.1 = None
     ↔ ∃ c : Config.t, newConfig = [any_Config c])
  ∧ (Update newConfig s).2 = []
  ∧ Service.diag (Update newConfig s).1.2 = Service.diag s.
Proof.
  destruct newConfig as [|v [|v' rest]]; [| destruct v |]; simpl;
    (split_and!; [split|..]); try done; eauto;
    by intros [c Hc].
Qed.

(** X19. [Update] with one payload that is not a [Config] returns an
    error that names the type expected and the type got, and leaves the
    service as it was. *)
Theorem Update_rejects_other_type (v : any) (s : Service.t) :
  (∀ c : Config.t, v ≠ any_Config c) →
  Update [v] s
  = (Some ("expected config object to be of type sensugo.Config, got "
           +:+ type_name_of v), s, []).
Proof.
  intros Hnot. destruct v as [c | o | n]; [by destruct (Hnot c) | done | done].
Qed.

(** X20. After [Update] with one [Config] payload every delivery works
    from that configuration and not from the one before: when it is
    disabled [Alert] refuses; a request goes to its URL with its token;
    an event for which no namespace and no handlers are passed takes
    its namespace and its handlers. *)
Theorem Update_then_Alert (w : World) (s : Service.t) (c : Config.t)
    (check entity message namespace : string) (handlers : list string)
    (labels : gmap string string) (level : alert.Level) :
  let s' := (Update [any_Config c] s).1.2 in
  let run := Alert w check entity message namespace handlers labels level s' in
  (Config.Enabled c = false →
     run = (Some (errors_New "service is not enabled"), s', []))
  ∧ (∀ req : http.Request.t,
       req ∈ requests_sent run.2 →
       http.Request.URL req = Config.URL c
       ∧ http.Request.Header req !! "Authorization" = Some [Config.Token c])
  ∧ (∀ ev : PostEvent.t,
       ev ∈ events_built run.2 →
       (namespace = "" →
          PostEvent.EntityMetadata.Namespace
            (PostEvent.Entity.Metadata (PostEvent.Entity ev))
          = Config.Namespace c)
       ∧ (handlers = [] →
            PostEvent.Check.Handlers (PostEvent.Check ev)
            = Config.Handlers c)).
Proof.
  intros s' run. subst run s'. simpl.
  split_and!.
  - intros Hoff. run_M. simpl. rewrite Hoff. reflexivity.
  - intros req.
    run_M; simpl;
      destruct (Config.Enabled c); simpl;
      repeat match goal with
        | |- context [match json_Marshal ?w ?ev with _ => _ end] =>
            destruct (json_Marshal w ev); simpl
        | |- context [match http_NewRequest_err ?w ?m ?u with _ => _ end] =>
            destruct (http_NewRequest_err w m u); simpl
        | |- context [match http_Client_Do ?w ?r with _ => _ end] =>
            destruct (http_Client_Do w r); simpl
        | |- context [bool_decide (?c `quot` 100 ≠ 2)] =>
            destruct (bool_decide (c `quot` 100 ≠ 2)); simpl
        end;
      intros Hin; in_run Hin;
      (split; [reflexivity|]);
      unfold http.Request.WithTimeout, http.Request.Header_Set;
      cbn [http.Request.Header];
      rewrite lookup_insert_ne by done; by rewrite lookup_insert_eq.
  - intros ev.
    run_M; simpl;
      destruct (Config.Enabled c); simpl;
      repeat match goal with
        | |- context [match json_Marshal ?w ?ev with _ => _ end] =>
            destruct (json_Marshal w ev); simpl
        | |- context [match http_NewRequest_err ?w ?m ?u with _ => _ end] =>
            destruct (http_NewRequest_err w m u); simpl
        | |- context [match http_Client_Do ?w ?r with _ => _ end] =>
            destruct (http_Client_Do w r); simpl
        | |- context [bool_decide (?c `quot` 100 ≠ 2)] =>
            destruct (bool_decide (c `quot` 100 ≠ 2)); simpl
        end;
      intros Hin; in_run Hin; simpl; (split; intros ->; done).
Qed.

(** A sequence of updates is run call by call. *)
Lemma Update_all_app (calls1 calls2 : list (list any)) (s : Service.t) :
  Update_all (calls1 ++ calls2) s = Update_all calls2 (Update_all calls1 s).
Proof.
  revert s. induction calls1 as [|nc calls1 IH]; intros s; simpl; [done|].
  apply IH.
Qed.

(** One update stores the configuration of a well-formed call and keeps
    the service otherwise. *)
Lemma Update_service (newConfig : list any) (s : Service.t) :
  (∃ c : Config.t,
     newConfig = [any_Config c]
     ∧ (Update newConfig s).1.2
       = {| Service.configValue := c; Service.diag := Service.diag s |})
  ∨ ((∀ c : Config.t, newConfig ≠ [any_Config c])
     ∧ (Update newConfig s).1.2 = s).
Proof.
  destruct newConfig as [|v [|v' rest]]; [| destruct v |]; simpl;
    eauto; right; (split; [by intros c Hc | done]).
Qed.

(** X21. After any sequence of updates, failed ones included, the sink is
    the one the service had, and the stored configuration is either the
    one the service had or the payload of one of the well-formed calls,
    whole. *)
Theorem Update_all_config_origin (calls : list (list any)) (s : Service.t) :
  Service.diag (Update_all calls s) = Service.diag s
  ∧ (Service.configValue (Update_all calls s) = Service.configValue s
     ∨ [any_Config (Service.configValue (Update_all calls s))] ∈ calls).
Proof.
  revert s. induction calls as [|nc calls IH]; intros s; simpl; [by split; [|left]|].
  destruct (IH (Update nc s).1.2) as [Hd [Hc | Hc]];
    destruct (Update_service nc s) as [(c & -> & Hs) | (Hnot & Hs)];
    rewrite Hs in *; simpl in *; (split; [done|]).
  - right. rewrite Hc. apply list_elem_of_here.
  - by left.
  - right. by apply list_elem_of_further.
  - right. by apply list_elem_of_further.
Qed.

(** X22. In a sequence of updates the last call decides when it is
    well-formed, and changes nothing when it is not. *)
Theorem Update_all_last_call (calls : list (list any)) (newConfig : list any)
    (s : Service.t) :
  (∀ c : Config.t, newConfig = [any_Config c] →
     Service.configValue (Update_all (calls ++ [newConfig]) s) = c)
  ∧ ((∀ c : Config.t, newConfig ≠ [any_Config c]) →
     Update_all (calls ++ [newConfig]) s = Update_all calls s).
Proof.
  rewrite Update_all_app. simpl.
  destruct (Update_service newConfig (Update_all calls s))
    as [(c & -> & Hs) | (Hnot & Hs)]; rewrite Hs; split.
  - intros c' [= <-]. done.
  - intros Hnot. by destruct (Hnot c).
  - intros c ->. by destruct (Hnot c).
  - done.
Qed.

(** X23. [Update] does not call [Validate], yet the rule of [Validate]
    is kept by updates whose payloads keep it: when the configuration of
    the service and every [Config] payload validate, so does the stored
    configuration after the sequence, and no request of a later [Alert]
    goes to the empty URL. *)
Theorem Update_all_keeps_valid (w : World) (calls : list (list any))
    (s : Service.t)
    (check entity message namespace : string) (handlers : list string)
    (labels : gmap string string) (level : alert.Level) :
  Config.Validate (Service.configValue s) = None →
  (∀ c : Config.t, [any_Config c] ∈ calls → Config.Validate c = None) →
  Config.Validate (Service.configValue (Update_all calls s)) = None
  ∧ ∀ req : http.Request.t,
      req ∈ requests_sent
              (Alert w check entity message namespace handlers labels level
                     (Update_all calls s)).2 →
      http.Request.URL req ≠ "".
Proof.
  intros Hs Hcalls.
  assert (Config.Validate (Service.configValue (Update_all calls s)) = None)
    as Hval.
  { revert s Hs. induction calls as [|nc calls IH]; intros s Hs; simpl; [done|].
    apply IH.
    - intros c Hc. apply Hcalls. by apply list_elem_of_further.
    - destruct (Update_service nc s) as [(c & -> & Hu) | (Hnot & Hu)];
        rewrite Hu; simpl; [|done].
      apply Hcalls. apply list_elem_of_here. }
  split; [exact Hval|].
  intros req. revert Hval. unfold Config.Validate.
  generalize (Update_all calls s). intros s1.
  alert_all s1; intros Hval Hin; in_run Hin;
    simpl; intros Hurl; rewrite Hurl in Hval; done.
Qed.

End updating.

(** ** The further properties at concrete runs *)

Section further_runs.

Import Examples Failures.

#[local] Existing Instance alert.iota_levels.

Lemma Alert_transport_error_at_unreachable :
  let run := Alert unreachable "cpu" "db1" "cpu is high" "" [] ∅
                   alert.Critical svc_on in
  (sent_request ∈ requests_sent run.2
   ∧ http_Client_Do unreachable sent_request
     = Err "dial tcp: connection refused")
  ∧ run.1.1 = Some "dial tcp: connection refused"
  ∧ diag_reports run.2
    = [(sink, "Failed to POST to Sensu Go",
        Some "dial tcp: connection refused", [])]
  ∧ bodies_closed run.2 = 0%nat.
Proof.
  intros run.
  assert (sent_request ∈ requests_sent run.2) as Hin.
  { vm_compute. constructor. }
  split; [split; [exact Hin | reflexivity] |].
  exact (Alert_transport_error unreachable svc_on
           "cpu" "db1" "cpu is high" "" [] ∅ alert.Critical
           sent_request "dial tcp: connection refused" Hin eq_refl).
Defined.

Lemma Alert_2xx_silent_at_204 :
  let run := Alert (backend 204) "cpu" "db1" "cpu is high" "" [] ∅
                   alert.Critical svc_on in
  (sent_request ∈ requests_sent run.2
   ∧ http_Client_Do (backend 204) sent_request
     = Ok {| http.Response.StatusCode := 204 |}
   ∧ 200 ≤ 204 ≤ 299)
  ∧ run.1.1 = None
  ∧ diag_reports run.2 = [].
Proof.
  intros run.
  assert (sent_request ∈ requests_sent run.2) as Hin.
  { vm_compute. constructor. }
  assert (200 ≤ 204 ≤ 299) as Hcode by lia.
  split; [split; [exact Hin | split; [reflexivity | exact Hcode]] |].
  exact (Alert_2xx_silent (backend 204) svc_on
           "cpu" "db1" "cpu is high" "" [] ∅ alert.Critical
           sent_request {| http.Response.StatusCode := 204 |}
           Hin eq_refl Hcode).
Defined.

Lemma Alert_marshal_error_at_no_json :
  let run := Alert no_json "cpu" "db1" "cpu is high" "" [] ∅
                   alert.Critical svc_on in
  (cpu_post_event ∈ events_built run.2
   ∧ json_Marshal no_json cpu_post_event = Err "json: unsupported value")
  ∧ run = (Some "json: unsupported value", svc_on,
           [json_Marshal_call cpu_post_event]).
Proof.
  intros run.
  assert (cpu_post_event ∈ events_built run.2) as Hin.
  { vm_compute. constructor. }
  split; [split; [exact Hin | reflexivity] |].
  exact (Alert_marshal_error no_json svc_on
           "cpu" "db1" "cpu is high" "" [] ∅ alert.Critical
           cpu_post_event "json: unsupported value" Hin eq_refl).
Defined.

Lemma Alert_NewRequest_error_at_no_url :
  let run := Alert no_url "cpu" "db1" "cpu is high" "" [] ∅
                   alert.Critical svc_on in
  (cpu_post_event ∈ events_built run.2
   ∧ json_Marshal no_url cpu_post_event = Ok "{}"
   ∧ http_NewRequest_err no_url "POST" (Config.URL (Service.configValue svc_on))
     = Some "parse: invalid URL")
  ∧ run = (Some "failed to create POST request: parse: invalid URL", svc_on,
           [json_Marshal_call cpu_post_event]).
Proof.
  intros run.
  assert (cpu_post_event ∈ events_built run.2) as Hin.
  { vm_compute. constructor. }
  split; [split_and!; [exact Hin | reflexivity | reflexivity] |].
  exact (Alert_NewRequest_error no_url svc_on
           "cpu" "db1" "cpu is high" "" [] ∅ alert.Critical
           cpu_post_event "{}" "parse: invalid URL" Hin eq_refl eq_refl).
Defined.

Lemma Alert_request_shape_at_svc_on :
  let run := Alert (backend 200) "cpu" "db1" "cpu is high" "" [] ∅
                   alert.Critical svc_on in
  sent_request ∈ requests_sent run.2
  ∧ http.Request.Header sent_request !! "Authorization" = Some ["Key 123"]
  ∧ http.Request.Header sent_request !! "Content-Type"
    = Some ["application/json"]
  ∧ http.Request.Header sent_request !! "Accept" = None.
Proof.
  intros run.
  assert (sent_request ∈ requests_sent run.2) as Hin.
  { vm_compute. constructor. }
  destruct (Alert_request_shape (backend 200) svc_on
              "cpu" "db1" "cpu is high" "" [] ∅ alert.Critical
              sent_request Hin)
    as (_ & _ & _ & Ha & Hc & Hk & _).
  split_and!; [exact Hin | exact Ha | exact Hc | by apply Hk].
Defined.

Lemma Alert_event_fields_at_svc_on :
  let run := Alert (backend 200) "cpu" "db1" "cpu is high" "" [] ∅
                   alert.Critical svc_on in
  cpu_post_event ∈ events_built run.2
  ∧ PostEvent.Entity.EntityClass (PostEvent.Entity cpu_post_event) = "proxy"
  ∧ PostEvent.Check.Issued (PostEvent.Check cpu_post_event)
    = time_Now_Unix (backend 200).
Proof.
  intros run.
  assert (cpu_post_event ∈ events_built run.2) as Hin.
  { vm_compute. constructor. }
  destruct (Alert_event_fields (L := alert.iota_levels) (backend 200) svc_on
              "cpu" "db1" "cpu is high" "" [] ∅ alert.Critical
              cpu_post_event Hin)
    as (Hclass & _ & _ & _ & _ & _ & Hissued & _).
  split_and!; [exact Hin | exact Hclass | exact Hissued].
Defined.

Lemma Alert_valid_config_URL_at_svc_on :
  let run := Alert (backend 200) "cpu" "db1" "cpu is high" "" [] ∅
                   alert.Critical svc_on in
  (Config.Validate (Service.configValue svc_on) = None
   ∧ sent_request ∈ requests_sent run.2)
  ∧ http.Request.URL sent_request ≠ "".
Proof.
  intros run.
  assert (sent_request ∈ requests_sent run.2) as Hin.
  { vm_compute. constructor. }
  split; [split; [reflexivity | exact Hin] |].
  exact (Alert_valid_config_URL (backend 200) svc_on
           "cpu" "db1" "cpu is high" "" [] ∅ alert.Critical
           sent_request eq_refl Hin).
Defined.

Lemma Test_rejects_other_options_at_Config :
  (∀ o : testOptions.t, any_Config cfg_on ≠ any_testOptions_ptr o)
  ∧ Test (backend 200) (any_Config cfg_on) svc_on
    = (Some "unexpected options type sensugo.Config", svc_on, []).
Proof.
  assert (∀ o : testOptions.t, any_Config cfg_on ≠ any_testOptions_ptr o)
    as Hnot by (intros o; discriminate).
  split; [exact Hnot|].
  exact (Test_rejects_other_options (backend 200) svc_on (any_Config cfg_on)
           Hnot).
Defined.

Lemma Handle_transport_error_at_unreachable :
  let run := Handle unreachable route cpu_event svc_on in
  (sent_request ∈ requests_sent run.2
   ∧ http_Client_Do unreachable sent_request
     = Err "dial tcp: connection refused")
  ∧ diag_reports run.2
    = [(sink, "Failed to POST to Sensu Go",
        Some "dial tcp: connection refused", []);
       (handler.diag route, "failed to send event to Sensu Go",
        Some "dial tcp: connection refused", [])].
Proof.
  intros run.
  assert (sent_request ∈ requests_sent run.2) as Hin.
  { vm_compute. constructor. }
  split; [split; [exact Hin | reflexivity] |].
  exact (Handle_transport_error_reported_twice unreachable route cpu_event
           svc_on sent_request "dial tcp: connection refused" Hin eq_refl).
Defined.

Lemma Handle_on_disabled_service_at_svc_off :
  Config.Enabled (Service.configValue svc_off) = false
  ∧ Handle (backend 200) route cpu_event svc_off
    = (tt, svc_off,
       [diag_Error_call (handler.diag route) "failed to send event to Sensu Go"
          (Some "service is not enabled") []]).
Proof.
  split; [reflexivity|].
  exact (Handle_on_disabled_service (backend 200) route cpu_event svc_off
           eq_refl).
Defined.

Lemma Handle_answered_reports_at_404 :
  let run := Handle (backend 404) route cpu_event svc_on in
  (sent_request ∈ requests_sent run.2
   ∧ http_Client_Do (backend 404) sent_request
     = Ok {| http.Response.StatusCode := 404 |})
  ∧ diag_reports run.2
    = [(sink, "POST returned non 2xx status code (404)", None,
        [keyvalue.KV "code" "404"])].
Proof.
  intros run.
  assert (sent_request ∈ requests_sent run.2) as Hin.
  { vm_compute. constructor. }
  split; [split; [exact Hin | reflexivity] |].
  exact (Handle_answered_reports (backend 404) route cpu_event svc_on
           sent_request {| http.Response.StatusCode := 404 |} Hin eq_refl).
Defined.


Lemma Update_rejects_other_type_at_ptr :
  (∀ c : Config.t, any_other "*sensugo.Config" ≠ any_Config c)
  ∧ Update [any_other "*sensugo.Config"] svc_on
    = (Some "expected config object to be of type sensugo.Config, got *sensugo.Config",
       svc_on, []).
Proof.
  assert (∀ c : Config.t, any_other "*sensugo.Config" ≠ any_Config c)
    as Hnot by (intros c; discriminate).
  split; [exact Hnot|].
  exact (Update_rejects_other_type (any_other "*sensugo.Config") svc_on Hnot).
Defined.

Lemma Update_all_keeps_valid_at_three_calls :
  let calls := [[any_Config cfg_off]; []; [any_Config cfg_on]] in
  (Config.Validate (Service.configValue svc_off) = None
   ∧ ∀ c : Config.t, [any_Config c] ∈ calls → Config.Validate c = None)
  ∧ Config.Validate (Service.configValue (Update_all calls svc_off)) = None
  ∧ Service.configValue (Update_all calls svc_off) = cfg_on.
Proof.
  intros calls.
  assert (∀ c : Config.t, [any_Config c] ∈ calls → Config.Validate c = None)
    as Hcalls.
  { intros c Hc. subst calls.
    repeat (apply elem_of_cons in Hc as [Hc | Hc]; [by simplify_eq |]).
    by apply elem_of_nil in Hc. }
  split; [split; [reflexivity | exact Hcalls] |].
  split; [| reflexivity].
  exact (proj1 (Update_all_keeps_valid (backend 200) calls svc_off
                  "cpu" "db1" "cpu is high" "" [] ∅ alert.Critical
                  eq_refl Hcalls)).
Defined.

End further_runs.
